(** * lize: the usage script [t.py]

    A shallow embedding of the script shipped with the [lize] package:
    the function [add] it defines, and the module body that wraps,
    serializes and deserializes that function and prints two objects.

    - Part 1 embeds the Python numbers [add] computes on ([int],
      [fractions.Fraction], [float]) with the [+], [*] and [==] of the
      interpreter, then [add] itself.
    - Part 2 embeds the module body, imports included, as a program over
      the calls it makes out of the script and the writes it makes to
      standard output, and runs it against an arbitrary implementation
      of the library, first on a standard output that takes every write,
      then on one that may refuse a write or fail to flush at exit.
    - Part 3 proves what [add] computes, Part 4 what a run of the module
      body does.
    - Parts 5 and 6 go further into both: the kind and the exactness of
      what [add] returns and when it raises; what a run, failed or not,
      leaves on standard output and in the module's names. *)

From Stdlib Require Import ZArith QArith Qcanon Lia Bool List String.
From Stdlib Require Import Floats.SpecFloat.
Import ListNotations.

Set Implicit Arguments.

(* ================================================================= *)
(** * Part 1: numbers and [add] *)

Module Num.

Local Open Scope Z_scope.

(** ** Outcomes of evaluating an expression *)

(** The arithmetic of the numbers below raises one exception only. *)
Inductive PyExc : Type :=
| OverflowError.

Inductive result (A : Type) : Type :=
| Ok (v : A)
| Raise (e : PyExc).

Arguments Ok {A} v.
Arguments Raise {A} e.

Definition bind {A B : Type} (r : result A) (f : A -> result B) : result B :=
  match r with
  | Ok v => f v
  | Raise e => Raise e
  end.

Notation "x <- r ;; k" := (bind r (fun x => k))
  (at level 61, r at next level, right associativity).

(** ** Floats: IEEE-754 binary64, as CPython's [float] *)

Definition prec : Z := 53.
Definition emax : Z := 1024.

Definition float : Type := spec_float.

Definition fadd : float -> float -> float := SFadd prec emax.
Definition fmul : float -> float -> float := SFmul prec emax.
Definition feqb : float -> float -> bool := SFeqb.

Definition is_nan (x : float) : bool :=
  match x with
  | S754_nan => true
  | _ => false
  end.

(** A conversion to [float] that rounds to an infinity raises
    [OverflowError] in CPython instead of returning it. *)
Definition finite_or_overflow (x : float) : result float :=
  match x with
  | S754_infinity _ => Raise OverflowError
  | _ => Ok x
  end.

(** [float(n)] for an [int]: round to nearest, ties to even. *)
Definition float_of_int (n : Z) : result float :=
  finite_or_overflow (binary_normalize prec emax n 0 false).

(** [n / d] for two [int]s, which is how [float(Fraction(n, d))] is
    computed: the correctly rounded quotient. *)
Definition float_of_ratio (n : Z) (d : positive) : result float :=
  match n with
  | Z0 => Ok (S754_zero false)
  | Zpos p =>
      finite_or_overflow
        (SFdiv prec emax (S754_finite false p 0) (S754_finite false d 0))
  | Zneg p =>
      finite_or_overflow
        (SFdiv prec emax (S754_finite true p 0) (S754_finite false d 0))
  end.

(** The exact value of a finite float; [None] for NaN and the infinities. *)
Definition float_exact (x : float) : option Q :=
  match x with
  | S754_zero _ => Some (0 # 1)%Q
  | S754_finite s m e =>
      let sm := cond_Zopp s (Zpos m) in
      Some (match e with
            | Z0 => sm # 1
            | Zpos p => (sm * Z.pow_pos 2 p) # 1
            | Zneg p => sm # (Pos.pow 2 p)
            end)%Q
  | S754_infinity _ | S754_nan => None
  end.

(** ** Numeric values *)

(** [PyFrac] is a [fractions.Fraction]: always in lowest terms, which is
    what [Qc] carries. *)
Inductive PyVal : Type :=
| PyInt (n : Z)
| PyFrac (q : Qc)
| PyFloat (x : float).

Definition frac_of_int (n : Z) : Qc := Q2Qc (inject_Z n).

Definition float_of_frac (q : Qc) : result float :=
  float_of_ratio (Qnum q) (Qden q).

(** Coercion to [float] of an operand that meets a [float]. *)
Definition to_float (v : PyVal) : result float :=
  match v with
  | PyInt n => float_of_int n
  | PyFrac q => float_of_frac q
  | PyFloat x => Ok x
  end.

(** [a + b]. *)
Definition py_add (a b : PyVal) : result PyVal :=
  match a, b with
  | PyInt m, PyInt n => Ok (PyInt (m + n))
  | PyInt m, PyFrac q => Ok (PyFrac (frac_of_int m + q)%Qc)
  | PyFrac p, PyInt n => Ok (PyFrac (p + frac_of_int n)%Qc)
  | PyFrac p, PyFrac q => Ok (PyFrac (p + q)%Qc)
  | _, _ =>
      x <- to_float a ;;
      y <- to_float b ;;
      Ok (PyFloat (fadd x y))
  end.

(** [a * b]. *)
Definition py_mul (a b : PyVal) : result PyVal :=
  match a, b with
  | PyInt m, PyInt n => Ok (PyInt (m * n))
  | PyInt m, PyFrac q => Ok (PyFrac (frac_of_int m * q)%Qc)
  | PyFrac p, PyInt n => Ok (PyFrac (p * frac_of_int n)%Qc)
  | PyFrac p, PyFrac q => Ok (PyFrac (p * q)%Qc)
  | _, _ =>
      x <- to_float a ;;
      y <- to_float b ;;
      Ok (PyFloat (fmul x y))
  end.

(** The exact value of an [int] or a [Fraction]. *)
Definition exact_value (v : PyVal) : option Q :=
  match v with
  | PyInt n => Some (inject_Z n)
  | PyFrac q => Some (this q)
  | PyFloat x => float_exact x
  end.

(** [a == b]: two floats compare as IEEE-754 says (NaN equals nothing,
    itself included); every other pair compares by exact value. *)
Definition py_eq (a b : PyVal) : bool :=
  match a, b with
  | PyFloat x, PyFloat y => feqb x y
  | _, _ =>
      match exact_value a, exact_value b with
      | Some p, Some q => Qeq_bool p q
      | _, _ => false
      end
  end.

(** ** The function of the script *)

(** [def add(a: int, b: int, k: float) -> float: return (a + b) * k] *)
Definition add (a b k : PyVal) : result PyVal :=
  s <- py_add a b ;;
  py_mul s k.

(** ** Expressions the function is compared with *)

(** The expression [l == r], where either side may raise. *)
Definition eq_expr (l r : result PyVal) : result bool :=
  x <- l ;;
  y <- r ;;
  Ok (py_eq x y).

(** The expression [(a + b) * k], written where [add] is called. *)
Definition sum_times (a b k : PyVal) : result PyVal :=
  s <- py_add a b ;;
  py_mul s k.

(** The expression [a * k + b * k]. *)
Definition distributed (a b k : PyVal) : result PyVal :=
  ak <- py_mul a k ;;
  bk <- py_mul b k ;;
  py_add ak bk.

(** An [int] or a [Fraction]: a number whose arithmetic is exact. *)
Definition is_exact (v : PyVal) : bool :=
  match v with
  | PyFloat _ => false
  | _ => true
  end.

Definition val_is_nan (v : PyVal) : bool :=
  match v with
  | PyFloat x => is_nan x
  | _ => false
  end.

(** ** Some floats *)

Definition f_zero : float := S754_zero false.            (* 0.0 *)
Definition f_nan : float := S754_nan.                    (* float("nan") *)
Definition f_2p1023 : float :=                           (* 2.0 ** 1023 *)
  S754_finite false 4503599627370496 971.
Definition f_3p1022 : float :=                           (* 3 * 2.0 ** 1022 *)
  S754_finite false 6755399441055744 971.
Definition f_2 : float :=                                (* 2.0 *)
  S754_finite false 4503599627370496 (-51).
Definition f_1_5 : float :=                              (* 1.5 *)
  S754_finite false 6755399441055744 (-52).
Definition f_4_5 : float :=                              (* 4.5 *)
  S754_finite false 5066549580791808 (-50).

(** ** Kinds of values *)

Definition is_int (v : PyVal) : bool :=
  match v with
  | PyInt _ => true
  | _ => false
  end.

Definition is_float (v : PyVal) : bool :=
  match v with
  | PyFloat _ => true
  | _ => false
  end.

(** The least magnitude of an [int] that [float] refuses: half a unit
    in the last place above the largest float. *)
Definition float_limit : Z := 2 ^ 1024 - 2 ^ 970.

End Num.

(* ================================================================= *)
(** * Part 2: the module body *)

Module Script.

Import Num.

Local Open Scope string_scope.
Local Open Scope list_scope.

(** ** Function objects *)

(** What a [def] statement with three parameters creates: a name, the
    annotated parameters, the annotated return type and the code. *)
Record PyFunction : Type := {
  fn_name : string;
  fn_params : list (string * string);
  fn_returns : string;
  fn_code : PyVal -> PyVal -> PyVal -> result PyVal
}.

(** [def add(a: int, b: int, k: float) -> float: ...] *)
Definition add_fn : PyFunction := {|
  fn_name := "add";
  fn_params := [("a", "int"); ("b", "int"); ("k", "float")];
  fn_returns := "float";
  fn_code := add
|}.

Definition newline : string := String (Ascii.ascii_of_nat 10) EmptyString.

(** ** The library

    [lize] itself is not part of the script.  The types of the objects
    it hands out, the exceptions it may raise and the state it keeps are
    an interface the script is written against. *)
Class Lize : Type := {
  Runnable : Type;   (* what [Runnable.from_pyfn] returns *)
  Portable : Type;   (* what [serialize] returns *)
  Callable : Type;   (* what [deserialize] returns *)
  LibErr : Type;     (* exceptions raised inside the library *)
  Heap : Type        (* state private to the library *)
}.

Section Program.

Context {L : Lize}.

(** Exceptions that can reach the top level of the module.  [SysExit c]
    is a [SystemExit] whose code is the [int] [c], [None] counting as
    0; [FromLib] is any other exception raised inside the library or by
    an import; [Rejected] is the error of a write that standard output
    refused.  [KeyboardInterrupt], which only a signal raises, is not
    modelled. *)
Inductive Exn : Type :=
| Arith (e : PyExc)
| FromLib (e : LibErr)
| SysExit (code : Z)
| Rejected.

Inductive Outcome (A : Type) : Type :=
| Returned (a : A)
| Raised (e : Exn).

Arguments Returned {A} a.
Arguments Raised {A} e.

(** Objects bound to module-level names: the function a [def] makes,
    the values the library returned, an object taken from a module by
    an [import], and the dictionary [__annotations__], from names to
    the annotations written for them. *)
Inductive Obj : Type :=
| OFunction (f : PyFunction)
| OPortable (s : Portable)
| OCallable (d : Callable)
| OImported (module name : string)
| OAnnotations (entries : list (string * string)).

(** The process as the script sees it. *)
Record World : Type := {
  argv : list string;
  environ : list (string * string);
  stdin : list string;
  stdout : string;
  globals : list (string * Obj);
  heap : Heap
}.

(** ** Operations *)

(** Calls that run code outside the script.  [from m import names]
    loads the module [m] and takes the names from it.  A call of
    [Runnable.from_pyfn] starts with the lookup of the attribute.
    Evaluating the annotation [Callable[...]] runs the subscription of
    what was imported as [Callable].  [print(x)] converts [x] with
    [str], which for the two printed objects runs the conversion of the
    object's class. *)
Inductive LibCall : Type -> Type :=
| ImportFrom (module : string) (names : list string) : LibCall unit
| Subscript (expr : string) : LibCall unit
| FromPyfn (f : PyFunction) : LibCall Runnable
| Serialize (f : PyFunction) : LibCall Portable
| Deserialize (s : Portable) : LibCall Callable
| StrRunnable (r : Runnable) : LibCall string
| StrCallable (d : Callable) : LibCall string.

(** Everything a module body can do to the process. *)
Inductive Op : Type -> Type :=
| Lib {X : Type} (c : LibCall X) : Op X
| Assign (x : string) (v : Obj) : Op unit      (* [x = v], [def x] *)
| Print (line : string) : Op unit              (* the write of [print] *)
| ReadLine : Op string                         (* [sys.stdin.readline()] *)
| Argv : Op (list string)                      (* [sys.argv] *)
| GetEnv (name : string) : Op (option string). (* [os.environ.get] *)

Inductive Prog (A : Type) : Type :=
| Ret (a : A)
| Throw (e : Exn)
| Do {X : Type} (o : Op X) (k : X -> Prog A).

Arguments Ret {A} a.
Arguments Throw {A} e.
Arguments Do {A X} o k.

Notation "x <~ o ;; k" := (Do o (fun x => k))
  (at level 61, o at next level, right associativity).
Notation "o ;;; k" := (Do o (fun _ => k))
  (at level 61, right associativity).

(** ** The script *)

(** [print(x)] for a [Runnable] and for the deserialized object. *)
Definition print_runnable (r : Runnable) (k : Prog unit) : Prog unit :=
  line <~ Lib (StrRunnable r) ;;
  Print line ;;;
  k.

Definition print_callable (d : Callable) (k : Prog unit) : Prog unit :=
  line <~ Lib (StrCallable d) ;;
  Print line ;;;
  k.

(** The annotation written for [d] on line 10. *)
Definition annotation_of_d : string := "Callable[[int, int, float], int]".

(** The module body, statement by statement, as CPython up to 3.13
    executes it.  A module with an annotated name starts by setting up
    [__annotations__], which every way of running the file gives it
    empty; the annotated assignment of line 10 binds [d] first, then
    evaluates the annotation and records it.  The dictionary is held by
    value, so the new entry shows as a new binding of its name. *)
Definition script : Prog unit :=
  Assign "__annotations__" (OAnnotations []) ;;;
  Lib (ImportFrom "typing" ["Callable"]) ;;;  (* from typing import Callable *)
  Assign "Callable" (OImported "typing" "Callable") ;;;
  Lib (ImportFrom "lize" ["serialize"; "deserialize"; "Runnable"]) ;;;
  Assign "serialize" (OImported "lize" "serialize") ;;;
  Assign "deserialize" (OImported "lize" "deserialize") ;;;
  Assign "Runnable" (OImported "lize" "Runnable") ;;;
  Assign "add" (OFunction add_fn) ;;;       (* def add(a, b, k): ... *)
  r <~ Lib (FromPyfn add_fn) ;;             (* Runnable.from_pyfn(add) *)
  print_runnable r (                        (* print(...) *)
  s <~ Lib (Serialize add_fn) ;;            (* s = serialize(add) *)
  Assign "s" (OPortable s) ;;;
  d <~ Lib (Deserialize s) ;;               (* d: ... = deserialize(s) *)
  Assign "d" (OCallable d) ;;;
  Lib (Subscript annotation_of_d) ;;;
  Assign "__annotations__" (OAnnotations [("d", annotation_of_d)]) ;;;
  print_callable d (                        (* print(d) *)
  Ret tt)).

(** A call [f(a, b, k)] as a program: it evaluates the body. *)
Definition call (f : PyFunction) (a b k : PyVal) : Prog PyVal :=
  match fn_code f a b k with
  | Ok v => Ret v
  | Raise e => Throw (Arith e)
  end.

(** ** Running a program *)

(** An implementation of the library: what each call returns or raises
    and what it does to the process. *)
Definition Handler : Type :=
  forall X : Type, LibCall X -> World -> Outcome X * World.

Definition set_global (x : string) (v : Obj) (w : World) : World :=
  {| argv := argv w; environ := environ w; stdin := stdin w;
     stdout := stdout w; globals := (x, v) :: globals w; heap := heap w |}.

Definition write_stdout (s : string) (w : World) : World :=
  {| argv := argv w; environ := environ w; stdin := stdin w;
     stdout := stdout w ++ s; globals := globals w; heap := heap w |}.

Definition read_stdin (w : World) : string * World :=
  match stdin w with
  | [] => ("", w)
  | l :: rest =>
      (l, {| argv := argv w; environ := environ w; stdin := rest;
             stdout := stdout w; globals := globals w; heap := heap w |})
  end.

Fixpoint lookup_env (name : string) (env : list (string * string))
  : option string :=
  match env with
  | [] => None
  | (n, v) :: rest => if String.eqb n name then Some v else lookup_env name rest
  end.

(** One operation, on a standard output that takes every write;
    [handle_on] below is the general case. *)
Definition handle (lib : Handler) {X : Type} (o : Op X) (w : World)
  : Outcome X * World :=
  match o in Op T return Outcome T * World with
  | Lib c => lib _ c w
  | Assign x v => (Returned tt, set_global x v w)
  | Print line => (Returned tt, write_stdout (line ++ newline) w)
  | ReadLine => let '(l, w') := read_stdin w in (Returned l, w')
  | Argv => (Returned (argv w), w)
  | GetEnv name => (Returned (lookup_env name (environ w)), w)
  end.

(** What a run leaves behind, operation by operation.  [EvPrint] is a
    write of [print] that succeeded, [EvPrintFailed] one that standard
    output refused. *)
Inductive Event : Type :=
| EvImport (module : string) (names : list string) (r : Outcome unit)
| EvSubscript (expr : string) (r : Outcome unit)
| EvPrintFailed (line : string) (e : Exn)
| EvFromPyfn (f : PyFunction) (r : Outcome Runnable)
| EvSerialize (f : PyFunction) (r : Outcome Portable)
| EvDeserialize (s : Portable) (r : Outcome Callable)
| EvStrRunnable (x : Runnable) (r : Outcome string)
| EvStrCallable (d : Callable) (r : Outcome string)
| EvAssign (x : string) (v : Obj)
| EvPrint (line : string)
| EvReadLine (r : Outcome string)
| EvArgv (r : Outcome (list string))
| EvGetEnv (name : string) (r : Outcome (option string)).

Definition event_of {X : Type} (o : Op X) : Outcome X -> Event :=
  match o in Op T return Outcome T -> Event with
  | Lib c =>
      match c in LibCall T return Outcome T -> Event with
      | ImportFrom m names => EvImport m names
      | Subscript expr => EvSubscript expr
      | FromPyfn f => EvFromPyfn f
      | Serialize f => EvSerialize f
      | Deserialize s => EvDeserialize s
      | StrRunnable x => EvStrRunnable x
      | StrCallable d => EvStrCallable d
      end
  | Assign x v => fun _ => EvAssign x v
  | Print line =>
      fun r =>
        match r with
        | Returned _ => EvPrint line
        | Raised e => EvPrintFailed line e
        end
  | ReadLine => EvReadLine
  | Argv => EvArgv
  | GetEnv name => EvGetEnv name
  end.

Record Run (A : Type) : Type := {
  outcome : Outcome A;
  final : World;
  trace : list Event
}.

(** Puts the event of an operation in front of the rest of a run. *)
Definition after_event {A : Type} (ev : Event) (rest : Run A) : Run A :=
  match rest with
  | {| outcome := r; final := w; trace := t |} =>
      {| outcome := r; final := w; trace := ev :: t |}
  end.

(** An exception stops the program where it is raised: there is no
    handler in the script. *)
Fixpoint run (lib : Handler) {A : Type} (p : Prog A) (w : World) : Run A :=
  match p with
  | Ret a => {| outcome := Returned a; final := w; trace := [] |}
  | Throw e => {| outcome := Raised e; final := w; trace := [] |}
  | Do o k =>
      match handle lib o w with
      | (Returned x, w') =>
          after_event (event_of o (Returned x)) (run lib (k x) w')
      | (Raised e, w') =>
          {| outcome := Raised e; final := w';
             trace := [event_of o (Raised e)] |}
      end
  end.

(** Exit status of the interpreter when its flush at exit succeeds: 0
    when the module body returns; the code of a [SystemExit], as the
    parent process reads it; 1 when any other exception reaches the
    top level. *)
Definition exit_code {A : Type} (r : Outcome A) : Z :=
  match r with
  | Returned _ => 0%Z
  | Raised (SysExit c) => (c mod 256)%Z
  | Raised _ => 1%Z
  end.

(** ** Reading a trace *)



(** Input and output on the process's streams; an output is a write
    that succeeded. *)
Definition is_output (ev : Event) : bool :=
  match ev with
  | EvPrint _ => true
  | _ => false
  end.

Definition is_input (ev : Event) : bool :=
  match ev with
  | EvReadLine _ => true
  | _ => false
  end.

Definition is_io (ev : Event) : bool := is_output ev || is_input ev.

(** A write of [print], taken by standard output or refused. *)
Definition is_print (ev : Event) : bool :=
  match ev with
  | EvPrint _ | EvPrintFailed _ _ => true
  | _ => false
  end.

(** A read of the command line or of the environment. *)
Definition reads_args (ev : Event) : bool :=
  match ev with
  | EvArgv _ | EvGetEnv _ _ => true
  | _ => false
  end.

(** A call that runs code outside the script. *)
Definition is_lib_call (ev : Event) : bool :=
  match ev with
  | EvImport _ _ _ | EvSubscript _ _
  | EvFromPyfn _ _ | EvSerialize _ _ | EvDeserialize _ _
  | EvStrRunnable _ _ | EvStrCallable _ _ => true
  | _ => false
  end.

(** The names the module body binds. *)
Definition own_names : list string :=
  ["__annotations__"; "Callable"; "serialize"; "deserialize"; "Runnable";
   "add"; "s"; "d"].

(** A binding of one of the module's own names. *)
Definition binds_own_name (ev : Event) : bool :=
  match ev with
  | EvAssign x _ => existsb (String.eqb x) own_names
  | _ => false
  end.

(** ** Properties of an implementation of the library *)

(** The library writes nothing to standard output. *)
Definition silent (lib : Handler) : Prop :=
  forall (X : Type) (c : LibCall X) (w : World),
    stdout (snd (lib X c w)) = stdout w.

(** Two states of the process that differ at most in the command line
    and the environment. *)
Definition same_but_args (w1 w2 : World) : Prop :=
  stdin w1 = stdin w2 /\ stdout w1 = stdout w2 /\
  globals w1 = globals w2 /\ heap w1 = heap w2.

(** The library behaves the same whatever the command line and the
    environment are. *)
Definition ignores_args (lib : Handler) : Prop :=
  forall (X : Type) (c : LibCall X) (w1 w2 : World),
    same_but_args w1 w2 ->
    fst (lib X c w1) = fst (lib X c w2) /\
    same_but_args (snd (lib X c w1)) (snd (lib X c w2)).

(** ** Programs that never look at the command line or the environment *)

Definition op_reads_args {X : Type} (o : Op X) : bool :=
  match o with
  | Argv | GetEnv _ => true
  | _ => false
  end.

Inductive no_arg_reads {A : Type} : Prog A -> Prop :=
| nar_ret (a : A) : no_arg_reads (Ret a)
| nar_throw (e : Exn) : no_arg_reads (Throw e)
| nar_do {X : Type} (o : Op X) (k : X -> Prog A) :
    op_reads_args o = false ->
    (forall x : X, no_arg_reads (k x)) ->
    no_arg_reads (Do o k).

(** ** The trace of a run that completes *)

(** The events of the module body when the two imports and the
    evaluation of the annotation return and the five calls into the
    library return [r], [l1], [s], [d] and [l2], in the order of the
    source. *)
Definition full_trace (r : Runnable) (l1 : string) (s : Portable)
  (d : Callable) (l2 : string) : list Event :=
  [ EvAssign "__annotations__" (OAnnotations []);
    EvImport "typing" ["Callable"] (Returned tt);
    EvAssign "Callable" (OImported "typing" "Callable");
    EvImport "lize" ["serialize"; "deserialize"; "Runnable"] (Returned tt);
    EvAssign "serialize" (OImported "lize" "serialize");
    EvAssign "deserialize" (OImported "lize" "deserialize");
    EvAssign "Runnable" (OImported "lize" "Runnable");
    EvAssign "add" (OFunction add_fn);
    EvFromPyfn add_fn (Returned r);
    EvStrRunnable r (Returned l1);
    EvPrint l1;
    EvSerialize add_fn (Returned s);
    EvAssign "s" (OPortable s);
    EvDeserialize s (Returned d);
    EvAssign "d" (OCallable d);
    EvSubscript annotation_of_d (Returned tt);
    EvAssign "__annotations__" (OAnnotations [("d", annotation_of_d)]);
    EvStrCallable d (Returned l2);
    EvPrint l2 ].

End Program.

Arguments Returned {L A} a.
Arguments Raised {L A} e.
Arguments Ret {L A} a.
Arguments Throw {L A} e.
Arguments Do {L A X} o k.

(** ** Two implementations to run the script against *)

(** A library whose objects are the function itself, whose only state
    is a count of the calls made to it, and whose exceptions are named
    by a string. *)
Definition toy : Lize := {|
  Runnable := PyFunction;
  Portable := PyFunction;
  Callable := PyFunction;
  LibErr := string;
  Heap := nat
|}.

Definition count_call (w : @World toy) : @World toy :=
  {| argv := argv w; environ := environ w; stdin := stdin w;
     stdout := stdout w; globals := globals w; heap := S (heap w) |}.

Definition toy_lib : @Handler toy :=
  fun X c w =>
    match c in LibCall T return @Outcome toy T * @World toy with
    | ImportFrom _ _ => (Returned tt, count_call w)
    | Subscript _ => (Returned tt, count_call w)
    | FromPyfn f => (Returned f, count_call w)
    | Serialize f => (Returned f, count_call w)
    | Deserialize s => (Returned s, count_call w)
    | StrRunnable r => (Returned ("Runnable(" ++ fn_name r ++ ")")%string, count_call w)
    | StrCallable d => (Returned ("<function " ++ fn_name d ++ ">")%string, count_call w)
    end.


(** [python t.py] and [HOME=/root python t.py --verbose]. *)
Definition plain_world : @World toy :=
  @Build_World toy ["t.py"] [] [] "" [] O.

Definition other_world : @World toy :=
  @Build_World toy ["t.py"; "--verbose"] [("HOME", "/root")] [] "" [] O.

(** ** Reading the state a run leaves *)

Section Reading.

Context {L : Lize}.




(** The library leaves the command line, the environment and standard
    input alone. *)
Definition keeps_inputs (lib : Handler) : Prop :=
  forall (X : Type) (c : LibCall X) (w : World),
    argv (snd (lib X c w)) = argv w /\
    environ (snd (lib X c w)) = environ w /\
    stdin (snd (lib X c w)) = stdin w.







End Reading.

(** ** Standard output as the run finds it *)

(** [sys.stdout] may refuse a text when it is printed (it cannot encode
    it, or the device behind an unbuffered stream fails), and it may
    fail to flush at exit what it took (the device behind a buffered
    stream fails).  A refused write leaves nothing pending. *)
Record Stream : Type := {
  accepts : string -> bool;
  flushes : bool
}.

Section OnStream.

Context {L : Lize}.

(** [print] raises when the stream refuses its text; every other
    operation is as in [handle]. *)
Definition handle_on (out : Stream) (lib : Handler) {X : Type} (o : Op X)
  (w : World) : Outcome X * World :=
  match o in Op T return Outcome T * World with
  | Print line =>
      if accepts out (line ++ newline)
      then (Returned tt, write_stdout (line ++ newline) w)
      else (Raised Rejected, w)
  | o' => handle lib o' w
  end.

Fixpoint run_on (out : Stream) (lib : Handler) {A : Type} (p : Prog A)
  (w : World) : Run A :=
  match p with
  | Ret a => {| outcome := Returned a; final := w; trace := [] |}
  | Throw e => {| outcome := Raised e; final := w; trace := [] |}
  | Do o k =>
      match handle_on out lib o w with
      | (Returned x, w') =>
          after_event (event_of o (Returned x)) (run_on out lib (k x) w')
      | (Raised e, w') =>
          {| outcome := Raised e; final := w';
             trace := [event_of o (Raised e)] |}
      end
  end.



End OnStream.

(** ** Sample streams and two more libraries *)





End Script.

(* ================================================================= *)
(** * Part 3: properties of [add] *)

Module NumFacts.

Import Num.

Local Open Scope Z_scope.

(** ** Floats *)

Lemma feqb_refl (x : float) : is_nan x = false -> feqb x x = true.
Proof.
  unfold feqb, SFeqb.
  destruct x as [s | s | | s m e]; simpl; try discriminate; intros _.
  - reflexivity.
  - destruct s; reflexivity.
  - rewrite Z.compare_refl, Pos.compare_cont_refl.
    destruct s; reflexivity.
Qed.

Lemma feqb_nan (x : float) : is_nan x = true -> feqb x x = false.
Proof.
  destruct x; simpl; try discriminate; reflexivity.
Qed.

Lemma fadd_comm (x y : float) : fadd x y = fadd y x.
Proof.
  unfold fadd.
  destruct x as [sx | sx | | sx mx ex], y as [sy | sy | | sy my ey];
    simpl; try reflexivity;
    try (destruct sx, sy; reflexivity).
  rewrite (Z.min_comm ey ex).
  f_equal.
  apply Z.add_comm.
Qed.

(** ** Coercions *)

Lemma raise_unique {A : Type} (e : PyExc) : @Raise A e = Raise OverflowError.
Proof.
  destruct e; reflexivity.
Qed.

Lemma frac_of_int_add (m n : Z) :
  frac_of_int (m + n) = (frac_of_int m + frac_of_int n)%Qc.
Proof.
  apply Qc_is_canon.
  unfold frac_of_int, Qcplus, Q2Qc; cbn [this].
  now rewrite !Qred_correct, inject_Z_plus.
Qed.

Lemma frac_of_int_mul (m n : Z) :
  frac_of_int (m * n) = (frac_of_int m * frac_of_int n)%Qc.
Proof.
  apply Qc_is_canon.
  unfold frac_of_int, Qcmult, Q2Qc; cbn [this].
  now rewrite !Qred_correct, inject_Z_mult.
Qed.

Lemma frac_of_int_one : frac_of_int 1 = 1%Qc.
Proof.
  apply Qc_is_canon; reflexivity.
Qed.

(** ** [+] and [==] *)

Lemma py_add_comm (a b : PyVal) : py_add a b = py_add b a.
Proof.
  destruct a as [m | p | x], b as [n | q | y]; simpl.
  - now rewrite Z.add_comm.
  - now rewrite Qcplus_comm.
  - destruct (float_of_int m); simpl; [now rewrite fadd_comm | reflexivity].
  - now rewrite Qcplus_comm.
  - now rewrite Qcplus_comm.
  - destruct (float_of_frac p); simpl; [now rewrite fadd_comm | reflexivity].
  - destruct (float_of_int n); simpl; [now rewrite fadd_comm | reflexivity].
  - destruct (float_of_frac q); simpl; [now rewrite fadd_comm | reflexivity].
  - now rewrite fadd_comm.
Qed.

Lemma py_eq_self (v : PyVal) : py_eq v v = negb (val_is_nan v).
Proof.
  destruct v as [n | q | x]; simpl.
  - apply Qeq_bool_iff; reflexivity.
  - apply Qeq_bool_iff; reflexivity.
  - destruct (is_nan x) eqn:N; simpl.
    + now apply feqb_nan.
    + now apply feqb_refl.
Qed.

Lemma eq_expr_self (r : result PyVal) :
  eq_expr r r =
  match r with
  | Ok v => Ok (negb (val_is_nan v))
  | Raise e => Raise e
  end.
Proof.
  destruct r as [v | e]; simpl; [now rewrite py_eq_self | reflexivity].
Qed.

(** ** Exact operands *)

Lemma add_exact_distributes (a b k : PyVal) :
  is_exact a = true -> is_exact b = true -> is_exact k = true ->
  exists v, add a b k = Ok v /\ distributed a b k = Ok v /\ is_exact v = true.
Proof.
  destruct a as [m | p | x], b as [n | q | y], k as [j | r | z];
    simpl; try discriminate; intros _ _ _; eexists;
    (split; [reflexivity | split; [ | reflexivity]]);
    unfold distributed; simpl; do 2 f_equal;
    rewrite ?frac_of_int_add, ?frac_of_int_mul; ring.
Qed.

Lemma add_exact_one (a b : PyVal) :
  is_exact a = true -> is_exact b = true ->
  exists v, add a b (PyInt 1) = Ok v /\ py_add a b = Ok v /\ is_exact v = true.
Proof.
  destruct a as [m | p | x], b as [n | q | y];
    simpl; try discriminate; intros _ _; eexists;
    (split; [reflexivity | split; [ | reflexivity]]);
    unfold add; simpl; do 2 f_equal;
    rewrite ?frac_of_int_one; ring.
Qed.

Lemma exact_not_nan (v : PyVal) : is_exact v = true -> val_is_nan v = false.
Proof.
  destruct v; simpl; [reflexivity | reflexivity | discriminate].
Qed.

(** ** The function [add] *)

(** [add(1, 2, 3)] is [9] and [add(1, 2, 1.5)] is [4.5]. *)
Example add_ints : add (PyInt 1) (PyInt 2) (PyInt 3) = Ok (PyInt 9).
Proof.
  reflexivity.
Qed.

Example add_int_float :
  add (PyInt 1) (PyInt 2) (PyFloat f_1_5) = Ok (PyFloat f_4_5).
Proof.
  vm_compute; reflexivity.
Qed.

(** [add(10 ** 400, 0, 1.5)] raises: the sum is too large for a float. *)
Example add_overflows :
  add (PyInt (10 ^ 400)) (PyInt 0) (PyFloat f_1_5) = Raise OverflowError.
Proof.
  vm_compute; reflexivity.
Qed.

(** C1, as amended.  For all numbers [a], [b], [k], [add(a, b, k)] has
    exactly the outcome of the expression [(a + b) * k]: the same value
    or the same exception.  The comparison
    [add(a, b, k) == (a + b) * k] is [True] when that outcome is a value
    other than NaN, [False] when it is NaN, and raises when it is an
    exception. *)
Theorem add_is_sum_times (a b k : PyVal) :
  add a b k = sum_times a b k /\
  eq_expr (add a b k) (sum_times a b k) =
    match add a b k with
    | Ok v => Ok (negb (val_is_nan v))
    | Raise e => Raise e
    end.
Proof.
  split.
  - reflexivity.
  - change (sum_times a b k) with (add a b k).
    apply eq_expr_self.
Qed.

(** C1 as stated fails: with the finite floats [a = b = 2.0 ** 1023] and
    [k = 0.0] the sum overflows to infinity and the product is NaN, so
    [add(a, b, k) == (a + b) * k] is [False]; so it is with the
    annotated types at [add(0, 0, float("nan"))]. *)
Lemma add_eq_sum_times_false :
  valid_binary prec emax f_2p1023 = true /\
  eq_expr (add (PyFloat f_2p1023) (PyFloat f_2p1023) (PyFloat f_zero))
          (sum_times (PyFloat f_2p1023) (PyFloat f_2p1023) (PyFloat f_zero))
    = Ok false /\
  eq_expr (add (PyInt 0) (PyInt 0) (PyFloat f_nan))
          (sum_times (PyInt 0) (PyInt 0) (PyFloat f_nan))
    = Ok false.
Proof.
  repeat split; vm_compute; reflexivity.
Qed.

(** C9, as amended.  For all numbers [a], [b], [k], [add(a, b, k)] and
    [add(b, a, k)] have the same outcome: the same value or the same
    exception.  The comparison [add(a, b, k) == add(b, a, k)] is [True]
    when that outcome is a value other than NaN, [False] when it is NaN,
    and raises when it is an exception. *)
Theorem add_commutes (a b k : PyVal) :
  add a b k = add b a k /\
  eq_expr (add a b k) (add b a k) =
    match add a b k with
    | Ok v => Ok (negb (val_is_nan v))
    | Raise e => Raise e
    end.
Proof.
  assert (E : add b a k = add a b k).
  { unfold add. now rewrite (py_add_comm b a). }
  rewrite E.
  split; [reflexivity | apply eq_expr_self].
Qed.

(** C9 as stated fails: with the finite floats [a = 2.0 ** 1023],
    [b = 3 * 2.0 ** 1022] and [k = 0.0] both calls return NaN, and
    [add(a, b, k) == add(b, a, k)] is [False]; so it is with the
    annotated types at [a = 1], [b = 2], [k = float("nan")]. *)
Lemma add_comm_eq_false :
  valid_binary prec emax f_2p1023 && valid_binary prec emax f_3p1022 = true /\
  eq_expr (add (PyFloat f_2p1023) (PyFloat f_3p1022) (PyFloat f_zero))
          (add (PyFloat f_3p1022) (PyFloat f_2p1023) (PyFloat f_zero))
    = Ok false /\
  eq_expr (add (PyInt 1) (PyInt 2) (PyFloat f_nan))
          (add (PyInt 2) (PyInt 1) (PyFloat f_nan))
    = Ok false.
Proof.
  repeat split; vm_compute; reflexivity.
Qed.

(** C10.  Over exact arithmetic, that is when [a], [b] and [k] are
    [int]s or [Fraction]s, [add(a, b, k) == a * k + b * k] and
    [add(a, b, 1) == a + b] are both [True]. *)
Theorem add_linear_exact (a b k : PyVal) :
  is_exact a = true -> is_exact b = true -> is_exact k = true ->
  eq_expr (add a b k) (distributed a b k) = Ok true /\
  eq_expr (add a b (PyInt 1)) (py_add a b) = Ok true.
Proof.
  intros Ha Hb Hk.
  destruct (add_exact_distributes a b k Ha Hb Hk) as (v & Ev & Dv & Xv).
  destruct (add_exact_one a b Ha Hb) as (u & Eu & Su & Xu).
  rewrite Ev, Dv, Eu, Su.
  rewrite !eq_expr_self, (exact_not_nan v Xv), (exact_not_nan u Xu).
  split; reflexivity.
Qed.

(** [add(1, Fraction(1, 2), 4) == 1 * 4 + Fraction(1, 2) * 4] and
    [add(1, Fraction(1, 2), 1) == 1 + Fraction(1, 2)]. *)
Lemma add_linear_exact_witness :
  eq_expr (add (PyInt 1) (PyFrac (Q2Qc (1 # 2))) (PyInt 4))
          (distributed (PyInt 1) (PyFrac (Q2Qc (1 # 2))) (PyInt 4)) = Ok true /\
  eq_expr (add (PyInt 1) (PyFrac (Q2Qc (1 # 2))) (PyInt 1))
          (py_add (PyInt 1) (PyFrac (Q2Qc (1 # 2)))) = Ok true.
Proof.
  apply (add_linear_exact (PyInt 1) (PyFrac (Q2Qc (1 # 2))) (PyInt 4));
    reflexivity.
Defined.

(** With floats the two sides of C10 differ:
    [add(2.0 ** 1023, -(2.0 ** 1023), 2.0)] is [0.0], while
    [a * k + b * k] is [inf + -inf], a NaN. *)
Example linearity_needs_exact :
  eq_expr (add (PyFloat f_2p1023) (PyFloat (SFopp f_2p1023)) (PyFloat f_2))
          (distributed (PyFloat f_2p1023) (PyFloat (SFopp f_2p1023)) (PyFloat f_2))
    = Ok false.
Proof.
  vm_compute; reflexivity.
Qed.

(** C8.  [add] is a total function of its three arguments: evaluating
    its body, one [+] and one [*], always ends, either with a value or
    with the [OverflowError] of a conversion to [float], which takes a
    [float] among the operands. *)
Theorem add_total (a b k : PyVal) :
  (exists v, add a b k = Ok v) \/
  (add a b k = Raise OverflowError /\
   is_exact a && is_exact b && is_exact k = false).
Proof.
  destruct (add a b k) as [v | e] eqn:E.
  - left. now exists v.
  - right. split; [apply raise_unique | ].
    destruct (is_exact a) eqn:Ha, (is_exact b) eqn:Hb, (is_exact k) eqn:Hk;
      try reflexivity.
    destruct (add_exact_distributes a b k Ha Hb Hk) as (v & Ev & _).
    congruence.
Qed.

End NumFacts.

(* ================================================================= *)
(** * Part 4: properties of the module body *)

Module ScriptFacts.

Import Num Script.

Local Open Scope string_scope.
Local Open Scope list_scope.

Lemma string_app_assoc (s t u : string) :
  ((s ++ t) ++ u = s ++ t ++ u)%string.
Proof.
  induction s as [ | c s IH]; cbn; [reflexivity | now rewrite IH].
Qed.

Section AnyLibrary.

Context {L : Lize}.
Variable lib : Handler.

(** Runs the module body up to the next call into the library and splits
    on what that call does. *)
Ltac next_call :=
  match goal with
  | |- context [match lib ?c ?w with pair _ _ => _ end] =>
      let E := fresh "E" in
      destruct (lib c w) as [[? | ?] ?] eqn:E; cbn in *
  | H : context [match lib ?c ?w with pair _ _ => _ end] |- _ =>
      let E := fresh "E" in
      destruct (lib c w) as [[? | ?] ?] eqn:E; cbn in *
  | u : unit |- _ => destruct u
  end.

Ltac run_script :=
  unfold script, print_runnable, print_callable in *; cbn in *;
  repeat next_call.

(** ** Runs that complete *)

Lemma script_completes (w : World) :
  outcome (run lib script w) = Returned tt ->
  exists r l1 s d l2 wa wb w1 w2 w3 w4 wc w5,
    lib (ImportFrom "typing" ["Callable"])
        (set_global "__annotations__" (OAnnotations []) w)
      = (Returned tt, wa) /\
    lib (ImportFrom "lize" ["serialize"; "deserialize"; "Runnable"])
        (set_global "Callable" (OImported "typing" "Callable") wa)
      = (Returned tt, wb) /\
    lib (FromPyfn add_fn)
        (set_global "add" (OFunction add_fn)
           (set_global "Runnable" (OImported "lize" "Runnable")
              (set_global "deserialize" (OImported "lize" "deserialize")
                 (set_global "serialize" (OImported "lize" "serialize") wb))))
      = (Returned r, w1) /\
    lib (StrRunnable r) w1 = (Returned l1, w2) /\
    lib (Serialize add_fn) (write_stdout (l1 ++ newline) w2)
      = (Returned s, w3) /\
    lib (Deserialize s) (set_global "s" (OPortable s) w3)
      = (Returned d, w4) /\
    lib (Subscript annotation_of_d) (set_global "d" (OCallable d) w4)
      = (Returned tt, wc) /\
    lib (StrCallable d)
        (set_global "__annotations__" (OAnnotations [("d", annotation_of_d)])
           wc)
      = (Returned l2, w5) /\
    final (run lib script w) = write_stdout (l2 ++ newline) w5 /\
    trace (run lib script w) = full_trace r l1 s d l2.
Proof.
  intros H.
  run_script; try discriminate.
  repeat eexists; eauto.
Qed.

Lemma lib_keeps_stdout (X : Type) (c : LibCall X) (w w' : World)
  (o : Outcome X) :
  silent lib -> lib c w = (o, w') -> stdout w' = stdout w.
Proof.
  intros S E.
  specialize (S X c w).
  now rewrite E in S.
Qed.

(** C2.  A run of the module body that completes performs exactly two
    writes, those of its two [print] calls: first [str] of the
    [Runnable] made from [add], then [str] of the object [deserialize]
    returned.  When the library itself writes nothing, these two lines,
    in this order, are all that the run appends to standard output. *)
Theorem script_stdout (w : World) :
  outcome (run lib script w) = Returned tt ->
  exists r l1 s d l2,
    trace (run lib script w) = full_trace r l1 s d l2 /\
    filter is_output (trace (run lib script w)) = [EvPrint l1; EvPrint l2] /\
    (silent lib ->
     stdout (final (run lib script w))
       = (stdout w ++ l1 ++ newline ++ l2 ++ newline)%string).
Proof.
  intros H.
  destruct (script_completes w H)
    as (r & l1 & s & d & l2 & wa & wb & w1 & w2 & w3 & w4 & wc & w5
        & Ea & Eb & E1 & E2 & E3 & E4 & Ec & E5 & F & T).
  exists r, l1, s, d, l2.
  rewrite T, F.
  split; [reflexivity | split; [reflexivity | intros S]].
  cbn.
  rewrite (lib_keeps_stdout S E5); cbn.
  rewrite (lib_keeps_stdout S Ec); cbn.
  rewrite (lib_keeps_stdout S E4); cbn.
  rewrite (lib_keeps_stdout S E3); cbn.
  rewrite (lib_keeps_stdout S E2).
  rewrite (lib_keeps_stdout S E1); cbn.
  rewrite (lib_keeps_stdout S Eb); cbn.
  rewrite (lib_keeps_stdout S Ea); cbn.
  now rewrite !string_app_assoc.
Qed.

(** ** Every run *)

(** ** Runs on any standard output *)

(** On a stream that takes every text, a run is the run of [run]. *)
Lemma run_on_accepting (out : Stream) (A : Type) (p : Prog A) (w : World) :
  (forall s, accepts out s = true) -> run_on out lib p w = run lib p w.
Proof.
  intros Acc; revert w.
  induction p as [a | e | X o k IH]; intros w; cbn [run run_on]; try reflexivity.
  assert (H : handle_on out lib o w = handle lib o w).
  { destruct o; cbn; try reflexivity. now rewrite Acc. }
  rewrite H.
  destruct (handle lib o w) as [[x | e] w']; [now rewrite IH | reflexivity].
Qed.

Ltac next_step :=
  match goal with
  | |- context [match lib ?c ?w with pair _ _ => _ end] =>
      let E := fresh "E" in
      destruct (lib c w) as [[? | ?] ?] eqn:E; cbn in *
  | H : context [match lib ?c ?w with pair _ _ => _ end] |- _ =>
      let E := fresh "E" in
      destruct (lib c w) as [[? | ?] ?] eqn:E; cbn in *
  | |- context [if accepts ?o ?s then _ else _] =>
      let E := fresh "E" in
      destruct (accepts o s) eqn:E; cbn in *
  | H : context [if accepts ?o ?s then _ else _] |- _ =>
      let E := fresh "E" in
      destruct (accepts o s) eqn:E; cbn in *
  | u : unit |- _ => destruct u
  end.

Ltac run_script_on :=
  unfold script, print_runnable, print_callable in *; cbn in *;
  repeat next_step.



(** ** What the module body touches *)

(** C3, as amended.  Whatever the imports and the library do inside the
    calls made to them (the two imports, the five calls into [lize] and
    the subscription of [Callable] in the annotation of [d]), every
    operation of the module body is such a call, a binding of one of its own names ([__annotations__],
    [Callable], [serialize], [deserialize], [Runnable], [add], [s] and
    [d]), or the write of a [print] to standard output, of which there
    are at most two; it reads no input, so it never waits for any, and
    it reads neither the command line nor the environment. *)
Theorem script_footprint (out : Stream) (w : World) :
  Forall (fun ev => is_lib_call ev || binds_own_name ev || is_print ev = true)
         (trace (run_on out lib script w)) /\
  Forall (fun ev => is_input ev || reads_args ev = false)
         (trace (run_on out lib script w)) /\
  (List.length (filter is_print (trace (run_on out lib script w))) <= 2)%nat.
Proof.
  run_script_on; repeat split; repeat constructor.
Qed.



(** ** The exit status *)





(** C7.  A run that completes executes, after its two imports and in
    this order: the definition of [add]; [Runnable.from_pyfn(add)] and
    the print of its result; [serialize(add)]; [deserialize] of the
    very value [serialize] returned; the print of the result.  In every run, completed or not,
    [serialize] is only called on [add], and [deserialize] is only
    called on what the call of [serialize] just before it returned. *)
Theorem script_round_trip (w : World) :
  (outcome (run lib script w) = Returned tt ->
   exists r l1 s d l2, trace (run lib script w) = full_trace r l1 s d l2) /\
  (forall f res, In (EvSerialize f res) (trace (run lib script w)) -> f = add_fn) /\
  (forall s res,
     In (EvDeserialize s res) (trace (run lib script w)) ->
     exists before after,
       trace (run lib script w) =
         before ++ EvSerialize add_fn (Returned s)
                :: EvAssign "s" (OPortable s)
                :: EvDeserialize s res :: after).
Proof.
  split; [ | split].
  - intros H.
    destruct (script_completes w H)
      as (r & l1 & s & d & l2 & _ & _ & _ & _ & _ & _ & _ & _
          & _ & _ & _ & _ & _ & _ & _ & _ & _ & T).
    now exists r, l1, s, d, l2.
  - intros f res I.
    run_script;
      repeat match goal with
             | H : _ \/ _ |- _ => destruct H as [H | H]
             | H : False |- _ => destruct H
             end;
      try discriminate; inversion I; reflexivity.
  - intros s res I.
    run_script;
      repeat match goal with
             | H : _ \/ _ |- _ => destruct H as [H | H]
             | H : False |- _ => destruct H
             end;
      try discriminate; inversion I; subst;
      match goal with
      | |- exists before after, ?t = _ =>
          exists (firstn 11 t); eexists; reflexivity
      end.
Qed.

(** ** The command line and the environment *)

Lemma set_global_same (x : string) (v : Obj) (w1 w2 : World) :
  same_but_args w1 w2 -> same_but_args (set_global x v w1) (set_global x v w2).
Proof.
  unfold same_but_args; cbn.
  intros (I & O & G & H); repeat split; congruence.
Qed.

Lemma write_stdout_same (s : string) (w1 w2 : World) :
  same_but_args w1 w2 -> same_but_args (write_stdout s w1) (write_stdout s w2).
Proof.
  unfold same_but_args; cbn.
  intros (I & O & G & H); repeat split; congruence.
Qed.

Lemma read_stdin_same (w1 w2 : World) :
  same_but_args w1 w2 ->
  fst (read_stdin w1) = fst (read_stdin w2) /\
  same_but_args (snd (read_stdin w1)) (snd (read_stdin w2)).
Proof.
  unfold same_but_args, read_stdin.
  intros (I & O & G & H); rewrite I.
  destruct (stdin w2) eqn:D; cbn; repeat split; congruence.
Qed.

Lemma handle_same (X : Type) (o : Op X) (w1 w2 : World) :
  ignores_args lib -> op_reads_args o = false -> same_but_args w1 w2 ->
  fst (handle lib o w1) = fst (handle lib o w2) /\
  same_but_args (snd (handle lib o w1)) (snd (handle lib o w2)).
Proof.
  intros IA NR S.
  destruct o; cbn in *; try discriminate.
  - now apply IA.
  - split; [reflexivity | now apply set_global_same].
  - split; [reflexivity | now apply write_stdout_same].
  - destruct (read_stdin_same S) as [F R].
    destruct (read_stdin w1), (read_stdin w2); cbn in *.
    split; [congruence | assumption].
Qed.

Lemma run_same (A : Type) (p : Prog A) :
  ignores_args lib -> no_arg_reads p ->
  forall w1 w2, same_but_args w1 w2 ->
    outcome (run lib p w1) = outcome (run lib p w2) /\
    trace (run lib p w1) = trace (run lib p w2) /\
    same_but_args (final (run lib p w1)) (final (run lib p w2)).
Proof.
  intros IA NR.
  induction NR as [a | e | X o k NRo NRk IH]; intros w1 w2 S; cbn.
  - auto.
  - auto.
  - destruct (handle_same o IA NRo S) as [F W].
    destruct (handle lib o w1) as [o1 w1'], (handle lib o w2) as [o2 w2'].
    cbn in F, W; subst o2.
    destruct o1 as [x | e]; cbn.
    + destruct (IH x w1' w2' W) as (EO & ET & EF).
      destruct (run lib (k x) w1'), (run lib (k x) w2'); cbn in *.
      subst; auto.
    + auto.
Qed.

Lemma script_no_arg_reads : no_arg_reads script.
Proof.
  unfold script, print_runnable, print_callable.
  repeat (constructor; [reflexivity | intros ?]).
  constructor.
Qed.

(** C6.  Given a library that behaves the same whatever the command
    line and the environment are, two runs of the module body that
    differ only in the command line or in the environment have the same
    outcome, perform the same operations with the same results, and
    leave the same standard output. *)
Theorem script_ignores_args (w1 w2 : World) :
  ignores_args lib -> same_but_args w1 w2 ->
  outcome (run lib script w1) = outcome (run lib script w2) /\
  trace (run lib script w1) = trace (run lib script w2) /\
  stdout (final (run lib script w1)) = stdout (final (run lib script w2)) /\
  exit_code (outcome (run lib script w1)) = exit_code (outcome (run lib script w2)).
Proof.
  intros IA S.
  destruct (run_same IA script_no_arg_reads S) as (EO & ET & EF).
  repeat split; [assumption | assumption | apply EF | now rewrite EO].
Qed.

End AnyLibrary.

(** ** Calling [add] *)

(** C5.  A call [add(a, b, k)] is a pure, stateless computation: its
    outcome is that of the body on the three arguments alone, whatever
    the state of the process and of the library are, so two calls with
    the same arguments return the same value; the call performs no
    operation and leaves the state as it found it. *)
Theorem add_call_pure {L : Lize} (lib1 lib2 : Handler) (w1 w2 : World)
  (a b k : PyVal) :
  outcome (run lib1 (call add_fn a b k) w1)
    = outcome (run lib2 (call add_fn a b k) w2) /\
  outcome (run lib1 (call add_fn a b k) w1)
    = match add a b k with
      | Ok v => Returned v
      | Raise e => Raised (Arith e)
      end /\
  final (run lib1 (call add_fn a b k) w1) = w1 /\
  trace (run lib1 (call add_fn a b k) w1) = [].
Proof.
  unfold call; cbn.
  destruct (add a b k); cbn; repeat split.
Qed.

(** ** The script against the two sample libraries *)

Lemma toy_lib_silent : silent toy_lib.
Proof.
  intros X c w; destruct c; reflexivity.
Qed.

Lemma toy_lib_ignores_args : ignores_args toy_lib.
Proof.
  intros X c w1 w2 (I & O & G & H).
  destruct c; cbn; unfold same_but_args; cbn; rewrite ?H; auto.
Qed.

(** With the sample library, [python t.py] prints [Runnable(add)] and
    [<function add>], each on a line of its own. *)
Lemma script_stdout_witness :
  exists r l1 s d l2,
    trace (run toy_lib script plain_world) = full_trace r l1 s d l2 /\
    filter is_output (trace (run toy_lib script plain_world))
      = [EvPrint l1; EvPrint l2] /\
    stdout (final (run toy_lib script plain_world))
      = (stdout plain_world ++ l1 ++ newline ++ l2 ++ newline)%string.
Proof.
  destruct (script_stdout toy_lib plain_world eq_refl)
    as (r & l1 & s & d & l2 & T & F & S).
  exists r, l1, s, d, l2.
  split; [exact T | split; [exact F | exact (S toy_lib_silent)]].
Defined.

(** C3 as stated fails: the run of the module body against the sample
    library performs output, and leaves two lines on standard output. *)
Lemma script_performs_io :
  existsb is_io (trace (run toy_lib script plain_world)) = true /\
  stdout (final (run toy_lib script plain_world))
    = ("Runnable(add)" ++ newline ++ "<function add>" ++ newline)%string.
Proof.
  split; reflexivity.
Qed.



(** [python t.py] and [HOME=/root python t.py --verbose] behave alike. *)
Lemma script_ignores_args_witness :
  outcome (run toy_lib script plain_world)
    = outcome (run toy_lib script other_world) /\
  trace (run toy_lib script plain_world)
    = trace (run toy_lib script other_world) /\
  stdout (final (run toy_lib script plain_world))
    = stdout (final (run toy_lib script other_world)) /\
  exit_code (outcome (run toy_lib script plain_world))
    = exit_code (outcome (run toy_lib script other_world)).
Proof.
  apply (script_ignores_args toy_lib_ignores_args).
  repeat split.
Defined.

(** With the sample library, [deserialize] receives the very function
    object that [serialize(add)] returned. *)
Lemma script_round_trip_witness :
  exists r l1 s d l2,
    trace (run toy_lib script plain_world) = full_trace r l1 s d l2.
Proof.
  apply (proj1 (script_round_trip toy_lib plain_world)).
  reflexivity.
Defined.

End ScriptFacts.

(* ================================================================= *)
(** * Part 5: more on what [add] returns *)

Module AddFacts.

Import Num.

Local Open Scope Z_scope.

(** ** The type of the result *)

(** X1.  When [add(a, b, k)] returns, the result is a [float] exactly
    when one of the three arguments is a [float], and an [int] exactly
    when all three are [int]s: the annotations of [add] do not convert
    anything, so [add] of three [int]s is an [int], not the [float] its
    signature announces. *)
Theorem add_result_kind (a b k v : PyVal) :
  add a b k = Ok v ->
  is_float v = is_float a || is_float b || is_float k /\
  is_int v = is_int a && is_int b && is_int k.
Proof.
  unfold add.
  destruct a as [m | p | x], b as [n | q | y], k as [j | r | z]; cbn;
    repeat match goal with
           | |- context [float_of_int ?i] => destruct (float_of_int i); cbn
           | |- context [float_of_frac ?f] => destruct (float_of_frac f); cbn
           end;
    intros H; inversion H; split; reflexivity.
Qed.

(** [add(1, 2, 3)] is the [int] 9. *)
Lemma add_result_kind_witness :
  is_float (PyInt 9) = is_float (PyInt 1) || is_float (PyInt 2) || is_float (PyInt 3) /\
  is_int (PyInt 9) = is_int (PyInt 1) && is_int (PyInt 2) && is_int (PyInt 3).
Proof.
  apply (add_result_kind (PyInt 1) (PyInt 2) (PyInt 3) (v := PyInt 9)).
  reflexivity.
Defined.

(** ** NaN *)

Lemma fadd_nan_l (y : float) : fadd S754_nan y = S754_nan.
Proof.
  reflexivity.
Qed.

Lemma fadd_nan_r (x : float) : fadd x S754_nan = S754_nan.
Proof.
  destruct x; reflexivity.
Qed.

Lemma fmul_nan_l (y : float) : fmul S754_nan y = S754_nan.
Proof.
  reflexivity.
Qed.

Lemma fmul_nan_r (x : float) : fmul x S754_nan = S754_nan.
Proof.
  destruct x; reflexivity.
Qed.

Lemma nan_is (x : float) : is_nan x = true -> x = S754_nan.
Proof.
  destruct x; simpl; try discriminate; reflexivity.
Qed.

(** X2.  A NaN among the arguments is never lost: [add] then returns
    NaN, unless converting another argument to [float] raises
    [OverflowError] first. *)
Theorem add_propagates_nan (a b k : PyVal) :
  val_is_nan a || val_is_nan b || val_is_nan k = true ->
  add a b k = Ok (PyFloat S754_nan) \/ add a b k = Raise OverflowError.
Proof.
  unfold add.
  destruct a as [m | p | x], b as [n | q | y], k as [j | r | z]; cbn;
    try discriminate; intros H;
    repeat match goal with
           | H : _ || _ = true |- _ => apply orb_true_iff in H; destruct H as [H | H]
           | H : false = true |- _ => discriminate H
           | H : is_nan _ = true |- _ => apply nan_is in H; subst
           end;
    repeat match goal with
           | |- context [float_of_int ?i] =>
               destruct (float_of_int i) as [? | []]; cbn
           | |- context [float_of_frac ?f] =>
               destruct (float_of_frac f) as [? | []]; cbn
           end;
    rewrite ?fadd_nan_l, ?fadd_nan_r, ?fmul_nan_l, ?fmul_nan_r;
    auto.
Qed.

(** [add(1, 2, float("nan"))] is NaN. *)
Lemma add_propagates_nan_witness :
  add (PyInt 1) (PyInt 2) (PyFloat f_nan) = Ok (PyFloat S754_nan) \/
  add (PyInt 1) (PyInt 2) (PyFloat f_nan) = Raise OverflowError.
Proof.
  apply (add_propagates_nan (PyInt 1) (PyInt 2) (PyFloat f_nan)).
  reflexivity.
Defined.

(** ** Exact operands *)

Lemma frac_of_int_value (n : Z) : (this (frac_of_int n) == inject_Z n)%Q.
Proof.
  unfold frac_of_int, Q2Qc; cbn [this].
  apply Qred_correct.
Qed.

(** X3.  On [int]s and [Fraction]s [add] is exact and cannot fail: it
    returns the [int] or [Fraction] whose value is the rational number
    (a + b) * k, with no rounding and no exception however large the
    operands are. *)
Theorem add_exact_value (a b k : PyVal) (qa qb qk : Q) :
  is_exact a = true -> is_exact b = true -> is_exact k = true ->
  exact_value a = Some qa -> exact_value b = Some qb ->
  exact_value k = Some qk ->
  exists v q,
    add a b k = Ok v /\ is_exact v = true /\
    exact_value v = Some q /\ (q == (qa + qb) * qk)%Q.
Proof.
  destruct a as [m | p | x], b as [n | q | y], k as [j | r | z];
    cbn; try discriminate; intros _ _ _ Ea Eb Ek;
    inversion Ea; inversion Eb; inversion Ek; subst;
    eexists; eexists;
    (split; [reflexivity | split; [reflexivity | split; [reflexivity | ]]]);
    cbn [this Qcplus Qcmult Q2Qc];
    repeat first [ rewrite Qred_correct | rewrite frac_of_int_value
                 | rewrite inject_Z_mult | rewrite inject_Z_plus ];
    reflexivity.
Qed.

(** [add(10 ** 400, Fraction(1, 2), 4)] is [4 * 10 ** 400 + 2]. *)
Lemma add_exact_value_witness :
  exists v q,
    add (PyInt (10 ^ 400)) (PyFrac (Q2Qc (1 # 2))) (PyInt 4) = Ok v /\
    is_exact v = true /\
    exact_value v = Some q /\
    (q == (inject_Z (10 ^ 400) + this (Q2Qc (1 # 2))) * inject_Z 4)%Q.
Proof.
  apply (add_exact_value (PyInt (10 ^ 400)) (PyFrac (Q2Qc (1 # 2))) (PyInt 4));
    reflexivity.
Defined.

(** ** Too large for a float *)

Unset Implicit Arguments.

Lemma digits2_size (p : positive) : digits2_pos p = Pos.size p.
Proof.
  induction p as [p IH | p IH | ]; simpl; [now rewrite IH | now rewrite IH | reflexivity].
Qed.

Lemma digits2_bounds (p : positive) :
  2 ^ (Zpos (digits2_pos p) - 1) <= Zpos p < 2 ^ Zpos (digits2_pos p).
Proof.
  rewrite digits2_size.
  assert (L : Zpos (Pos.size p) = Z.log2 (Zpos p) + 1).
  { destruct p; simpl; lia. }
  rewrite L.
  replace (Z.log2 (Zpos p) + 1 - 1) with (Z.log2 (Zpos p)) by lia.
  apply Z.log2_spec; lia.
Qed.

Lemma digits2_unique (p : positive) (d : Z) :
  2 ^ (d - 1) <= Zpos p < 2 ^ d -> Zpos (digits2_pos p) = d.
Proof.
  intros [Lo Hi].
  assert (0 < d).
  { destruct (Z.ltb_spec 0 d) as [ | N]; [assumption | exfalso].
    destruct (Z.eq_dec d 0) as [-> | ]; [simpl in Hi; lia | ].
    rewrite Z.pow_neg_r in Hi by lia; lia. }
  rewrite digits2_size.
  assert (L : Zpos (Pos.size p) = Z.log2 (Zpos p) + 1).
  { destruct p; simpl; lia. }
  rewrite L.
  rewrite (Z.log2_unique (Zpos p) (d - 1)); [lia | lia | ].
  now replace (Z.succ (d - 1)) with d by lia.
Qed.

Lemma iter_pos_nat {A : Type} (f : A -> A) (p : positive) (x : A) :
  iter_pos f p x = Nat.iter (Pos.to_nat p) f x.
Proof.
  revert x; induction p as [p IH | p IH | ]; intros x; cbn [iter_pos].
  - rewrite !IH, Pos2Nat.inj_xI.
    replace (S (2 * Pos.to_nat p)) with (Pos.to_nat p + Pos.to_nat p + 1)%nat by lia.
    rewrite !Nat.iter_add. reflexivity.
  - rewrite !IH, Pos2Nat.inj_xO.
    replace (2 * Pos.to_nat p)%nat with (Pos.to_nat p + Pos.to_nat p)%nat by lia.
    now rewrite Nat.iter_add.
  - reflexivity.
Qed.

Lemma shr_1_spec (m : Z) (r s : bool) :
  0 <= m ->
  shr_1 {| shr_m := m; shr_r := r; shr_s := s |}
  = {| shr_m := m / 2; shr_r := Z.odd m; shr_s := r || s |}.
Proof.
  intros Hm.
  destruct m as [ | [p | p | ] | p]; try lia; cbn [shr_1 Z.odd].
  - reflexivity.
  - f_equal. rewrite Pos2Z.inj_xI. apply Z.div_unique with 1; lia.
  - f_equal. rewrite Pos2Z.inj_xO. apply Z.div_unique with 0; lia.
  - reflexivity.
Qed.

Lemma shr_iter (k : nat) (m : Z) :
  0 <= m ->
  shr_m (Nat.iter (S k) shr_1 {| shr_m := m; shr_r := false; shr_s := false |})
    = m / 2 ^ Z.of_nat (S k) /\
  shr_r (Nat.iter (S k) shr_1 {| shr_m := m; shr_r := false; shr_s := false |})
    = Z.odd (m / 2 ^ Z.of_nat k).
Proof.
  intros Hm.
  induction k as [ | k [IHm IHr]].
  - cbn [Nat.iter]. rewrite shr_1_spec by assumption. cbn [shr_m shr_r].
    change (2 ^ Z.of_nat 1) with 2. change (2 ^ Z.of_nat 0) with 1.
    now rewrite Z.div_1_r.
  - rewrite Nat.iter_succ.
    destruct (Nat.iter (S k) shr_1 _) as [m' r' s'].
    cbn [shr_m shr_r] in IHm, IHr. subst m'.
    rewrite shr_1_spec by (apply Z.div_pos; lia).
    cbn [shr_m shr_r].
    split; [ | reflexivity].
    rewrite Z.div_div by lia.
    f_equal.
    rewrite (Nat2Z.inj_succ (S k)), Z.pow_succ_r by lia. lia.
Qed.

Lemma fexp_eq (e : Z) : fexp prec emax e = Z.max (e - 53) (-1074).
Proof.
  reflexivity.
Qed.

Lemma digits2_shift (m k : positive) :
  Zpos (digits2_pos (Pos.iter xO m k)) = Zpos (digits2_pos m) + Zpos k.
Proof.
  induction k as [ | k IH] using Pos.peano_ind.
  - cbn. lia.
  - rewrite Pos.iter_succ. cbn [digits2_pos]. lia.
Qed.

(** A mantissa of 53 digits with an exponent in range is kept as it is. *)
Lemma round_aux_exact (s : bool) (mz : positive) (ez : Z) :
  Zpos (digits2_pos mz) = 53 -> -1074 <= ez <= 971 ->
  binary_round_aux prec emax s (Zpos mz) ez loc_Exact = S754_finite s mz ez.
Proof.
  intros D E.
  assert (S1 : shr_fexp prec emax (Zpos mz) ez loc_Exact
               = ({| shr_m := Zpos mz; shr_r := false; shr_s := false |}, ez)).
  { unfold shr_fexp. cbn [Zdigits2]. rewrite D, fexp_eq.
    replace (Z.max (53 + ez - 53) (-1074) - ez) with 0 by lia.
    reflexivity. }
  unfold binary_round_aux.
  rewrite S1. cbn [shr_m loc_of_shr_record round_nearest_even].
  rewrite S1. cbn [shr_m].
  change (emax - prec) with 971.
  destruct (Z.leb_spec ez 971); [reflexivity | lia].
Qed.

(** An [int] below [2 ** 53] converts without rounding. *)
Lemma round_small (s : bool) (m : positive) :
  Zpos (digits2_pos m) <= 53 ->
  exists mz ez, binary_round prec emax s m 0 = S754_finite s mz ez.
Proof.
  intros D.
  unfold binary_round.
  rewrite fexp_eq.
  assert (D1 : 1 <= Zpos (digits2_pos m)) by lia.
  replace (Z.max (Zpos (digits2_pos m) + 0 - 53) (-1074))
    with (Zpos (digits2_pos m) - 53) by lia.
  unfold shl_align.
  destruct (Zpos (digits2_pos m) - 53 - 0) as [ | p | p] eqn:Sh; try lia.
  - rewrite round_aux_exact by lia. eauto.
  - rewrite round_aux_exact; [eauto | | lia].
    rewrite digits2_shift. lia.
Qed.

Lemma round_even_cases (mrs : shr_record) (q : Z) :
  (round_nearest_even q (loc_of_shr_record mrs) = q \/
   round_nearest_even q (loc_of_shr_record mrs) = q + 1) /\
  (Z.odd q = true ->
   round_nearest_even q (loc_of_shr_record mrs)
     = if shr_r mrs then q + 1 else q).
Proof.
  destruct mrs as [m [ | ] [ | ]]; cbn;
    rewrite <- ?Z.negb_odd; destruct (Z.odd q); cbn; auto;
    split; auto; discriminate.
Qed.

(** The second alignment of [binary_round_aux], after rounding to
    [m1] of 53 digits, or to [2 ** 53] when the rounding carried. *)
Lemma round_second (m1 n : Z) :
  2 ^ 52 <= m1 <= 2 ^ 53 -> 1 <= n ->
  exists m2 e2,
    shr_fexp prec emax m1 n loc_Exact
      = ({| shr_m := Zpos m2; shr_r := false; shr_s := false |}, e2) /\
    (e2 <= 971 <-> (m1 < 2 ^ 53 /\ n <= 971) \/ (m1 = 2 ^ 53 /\ n + 1 <= 971)).
Proof.
  intros M N.
  destruct (Z.eq_dec m1 (2 ^ 53)) as [-> | NE].
  - exists (2 ^ 52)%positive, (n + 1).
    split; [ | lia].
    unfold shr_fexp. rewrite fexp_eq.
    change (Zdigits2 (2 ^ 53)) with 54.
    replace (Z.max (54 + n - 53) (-1074) - n) with 1 by lia.
    reflexivity.
  - destruct m1 as [ | p1 | p1]; try lia.
    exists p1, n.
    split; [ | lia].
    unfold shr_fexp. rewrite fexp_eq. cbn [Zdigits2].
    rewrite (digits2_unique p1 53) by (change (53 - 1) with 52; lia).
    replace (Z.max (53 + n - 53) (-1074) - n) with 0 by lia.
    reflexivity.
Qed.

Lemma threshold_arith (m k t q m1 : Z) (r : bool) :
  0 <= k ->
  2 ^ 53 * 2 ^ k <= m < 2 ^ 54 * 2 ^ k ->
  t = m / 2 ^ k -> q = t / 2 -> r = Z.odd t ->
  (m1 = q \/ m1 = q + 1) ->
  (Z.odd q = true -> m1 = if r then q + 1 else q) ->
  ((m1 < 2 ^ 53 /\ k + 1 <= 971) \/ (m1 = 2 ^ 53 /\ k + 2 <= 971))
  <-> m < float_limit.
Proof.
  intros K B T Q R C O.
  assert (P : 0 < 2 ^ k) by (apply Z.pow_pos_nonneg; lia).
  assert (Tb : 2 ^ 53 <= t < 2 ^ 54).
  { subst t; split.
    - apply Z.div_le_lower_bound; lia.
    - apply Z.div_lt_upper_bound; lia. }
  assert (Tq : t = 2 * q + Z.b2z (Z.odd t)).
  { subst q. rewrite <- Z.div2_div. apply Z.div2_odd. }
  assert (Tm : 2 ^ k * t <= m < 2 ^ k * (t + 1)).
  { subst t. split.
    - apply Z.mul_div_le; lia.
    - rewrite Z.mul_add_distr_l, Z.mul_1_r.
      pose proof (Z.mod_pos_bound m (2 ^ k) P).
      pose proof (Z.div_mod m (2 ^ k)). lia. }
  unfold float_limit.
  destruct (Z.lt_trichotomy k 970) as [Lt | [Eq | Gt]].
  - assert (2 ^ k <= 2 ^ 969) by (apply Z.pow_le_mono_r; lia).
    destruct (Z.odd t); cbn [Z.b2z] in Tq; split; intros; try lia.
  - subst k.
    destruct (Z.eq_dec q (2 ^ 53 - 1)) as [Eq | Ne].
    + specialize (O ltac:(rewrite Eq; reflexivity)).
      rewrite <- R in Tq.
      destruct r; cbn [Z.b2z] in Tq; split; intros; lia.
    + destruct (Z.odd t); cbn [Z.b2z] in Tq; split; intros; lia.
  - assert (2 ^ 971 <= 2 ^ k) by (apply Z.pow_le_mono_r; lia).
    split; intros; lia.
Qed.

(** An [int] of more than 53 digits is rounded to 53 digits, and is too
    large exactly from [float_limit] on. *)
Lemma round_large (s : bool) (m : positive) (k : nat) :
  Zpos (digits2_pos m) = 54 + Z.of_nat k ->
  finite_or_overflow (binary_round prec emax s m 0) = Raise OverflowError
  <-> float_limit <= Zpos m.
Proof.
  intros D.
  pose proof (digits2_bounds m) as B. rewrite D in B.
  replace (54 + Z.of_nat k - 1) with (53 + Z.of_nat k) in B by lia.
  rewrite !Z.pow_add_r in B by lia.
  unfold binary_round.
  rewrite fexp_eq, D.
  replace (Z.max (54 + Z.of_nat k + 0 - 53) (-1074))
    with (Zpos (Pos.of_succ_nat k)) by lia.
  cbn [shl_align Z.sub Z.opp Z.add].
  unfold binary_round_aux, shr_fexp at 1.
  cbn [Zdigits2]. rewrite D, fexp_eq.
  replace (Z.max (54 + Z.of_nat k + 0 - 53) (-1074) - 0)
    with (Zpos (Pos.of_succ_nat k)) by lia.
  cbn [shr shr_record_of_loc].
  rewrite iter_pos_nat, SuccNat2Pos.id_succ.
  destruct (shr_iter k (Zpos m) ltac:(lia)) as [Hm Hr].
  set (mrs := Nat.iter (S k) shr_1 _) in *.
  destruct (round_even_cases mrs (shr_m mrs)) as [C O].
  set (m1 := round_nearest_even (shr_m mrs) (loc_of_shr_record mrs)) in *.
  rewrite Hm in C, O. rewrite Hr in O.
  rewrite Nat2Z.inj_succ, Z.pow_succ_r, (Z.mul_comm 2), <- Z.div_div in C, O by lia.
  assert (T : ((m1 < 2 ^ 53 /\ Z.of_nat k + 1 <= 971) \/
               (m1 = 2 ^ 53 /\ Z.of_nat k + 2 <= 971))
              <-> Zpos m < float_limit).
  { apply (threshold_arith (Zpos m) (Z.of_nat k)
             (Zpos m / 2 ^ Z.of_nat k) (Zpos m / 2 ^ Z.of_nat k / 2) m1
             (Z.odd (Zpos m / 2 ^ Z.of_nat k))); auto; lia. }
  assert (M1 : 2 ^ 52 <= m1 <= 2 ^ 53).
  { assert (2 ^ 53 <= Zpos m / 2 ^ Z.of_nat k < 2 ^ 54).
    { split.
      - apply Z.div_le_lower_bound; lia.
      - apply Z.div_lt_upper_bound; lia. }
    pose proof (Z.div2_odd (Zpos m / 2 ^ Z.of_nat k)) as E.
    rewrite Z.div2_div in E.
    destruct (Z.odd (Zpos m / 2 ^ Z.of_nat k)); cbn [Z.b2z] in E; lia. }
  destruct (round_second m1 (0 + Zpos (Pos.of_succ_nat k)) M1 ltac:(lia))
    as (m2 & e2 & S2 & E2).
  rewrite S2. cbn [shr_m].
  change (emax - prec) with 971.
  destruct (Z.leb_spec e2 971) as [Le | Gt]; cbn [finite_or_overflow].
  - split; [discriminate | ].
    intros F. exfalso.
    apply E2 in Le.
    assert (Zpos m < float_limit) by (apply T; lia).
    lia.
  - split; [intros _ | reflexivity].
    destruct (Z.lt_ge_cases (Zpos m) float_limit) as [Lt | Ge]; [ | assumption].
    exfalso. apply T in Lt.
    assert (e2 <= 971) by (apply E2; lia).
    lia.
Qed.

Lemma float_limit_digits (m : positive) :
  float_limit <= Zpos m -> 53 < Zpos (digits2_pos m).
Proof.
  intros F.
  pose proof (digits2_bounds m) as [_ Hi].
  destruct (Z.le_gt_cases (Zpos (digits2_pos m)) 53) as [Le | ]; [ | assumption].
  assert (2 ^ Zpos (digits2_pos m) <= 2 ^ 53) by (apply Z.pow_le_mono_r; lia).
  unfold float_limit in F. lia.
Qed.

Lemma round_overflow (s : bool) (m : positive) :
  finite_or_overflow (binary_round prec emax s m 0) = Raise OverflowError
  <-> float_limit <= Zpos m.
Proof.
  destruct (Z.le_gt_cases (Zpos (digits2_pos m)) 53) as [Le | Gt].
  - destruct (round_small s m Le) as (mz & ez & ->). cbn.
    split; [discriminate | ].
    intros F. apply float_limit_digits in F. lia.
  - apply (round_large s m (Z.to_nat (Zpos (digits2_pos m) - 54))).
    lia.
Qed.

(** [float(n)] raises exactly from [float_limit] on, in magnitude. *)
Lemma float_of_int_overflow (n : Z) :
  float_of_int n = Raise OverflowError <-> float_limit <= Z.abs n.
Proof.
  unfold float_of_int, binary_normalize.
  destruct n as [ | m | m].
  - cbn. split; [discriminate | unfold float_limit; lia].
  - apply round_overflow.
  - apply round_overflow.
Qed.

(** X4.  With [int]s [a], [b] and a [float] [k], [add(a, b, k)] raises
    [OverflowError] exactly when the magnitude of the sum [a + b] reaches
    [2 ** 1024 - 2 ** 970], whatever [k] is, zero and NaN included: the
    sum is exact, so two huge [int]s that cancel do not raise. *)
Theorem add_overflow_threshold (a b : Z) (x : float) :
  add (PyInt a) (PyInt b) (PyFloat x) = Raise OverflowError
  <-> float_limit <= Z.abs (a + b).
Proof.
  rewrite <- float_of_int_overflow.
  unfold add; cbn.
  destruct (float_of_int (a + b)) as [y | []]; cbn.
  - split; discriminate.
  - split; reflexivity.
Qed.

(** ** Small sums *)

Lemma pos_iter_xO (m k : positive) :
  Zpos (Pos.iter xO m k) = Zpos m * 2 ^ Zpos k.
Proof.
  induction k as [ | k IH] using Pos.peano_ind.
  - cbn [Pos.iter]. lia.
  - rewrite Pos.iter_succ, Pos2Z.inj_xO, IH, Pos2Z.inj_succ, Z.pow_succ_r by lia.
    lia.
Qed.

Lemma round_small_value (s : bool) (m : positive) :
  Zpos (digits2_pos m) <= 53 ->
  exists q,
    float_exact (binary_round prec emax s m 0) = Some q /\
    (q == inject_Z (cond_Zopp s (Zpos m)))%Q.
Proof.
  intros D.
  unfold binary_round.
  rewrite fexp_eq.
  assert (D1 : 1 <= Zpos (digits2_pos m)) by lia.
  replace (Z.max (Zpos (digits2_pos m) + 0 - 53) (-1074))
    with (Zpos (digits2_pos m) - 53) by lia.
  unfold shl_align.
  destruct (Zpos (digits2_pos m) - 53 - 0) as [ | p | p] eqn:Sh; try lia.
  - rewrite round_aux_exact by lia.
    eexists; split; [reflexivity | reflexivity].
  - rewrite round_aux_exact; [ | rewrite digits2_shift; lia | lia].
    replace (Zpos (digits2_pos m) - 53) with (Zneg p) by lia.
    eexists; split; [reflexivity | ].
    unfold Qeq, inject_Z; cbn [Qnum Qden].
    rewrite Pos2Z.inj_pow.
    destruct s; cbn [cond_Zopp]; rewrite ?pos_iter_xO; lia.
Qed.

(** X8.  With [int]s [a], [b] whose sum is below [2 ** 53] in magnitude
    and a [float] [k], [add(a, b, k)] returns [float(a + b) * k] where
    the conversion loses nothing: the float that enters the product is
    exactly the sum. *)
Theorem add_small_sum_exact (a b : Z) (x : float) :
  Z.abs (a + b) < 2 ^ 53 ->
  exists y q,
    add (PyInt a) (PyInt b) (PyFloat x) = Ok (PyFloat (fmul y x)) /\
    float_exact y = Some q /\ (q == inject_Z (a + b))%Q.
Proof.
  intros B.
  unfold add; cbn. unfold float_of_int, binary_normalize.
  assert (D : forall m : positive, Zpos m < 2 ^ 53 -> Zpos (digits2_pos m) <= 53).
  { intros m Hm.
    pose proof (digits2_bounds m) as [Lo _].
    destruct (Z.le_gt_cases (Zpos (digits2_pos m)) 53) as [ | Gt]; [assumption | ].
    assert (2 ^ 53 <= 2 ^ (Zpos (digits2_pos m) - 1)) by (apply Z.pow_le_mono_r; lia).
    lia. }
  destruct (a + b) as [ | m | m] eqn:E.
  - exists (S754_zero false), 0%Q. repeat split; reflexivity.
  - destruct (round_small false m (D m ltac:(lia))) as (mz & ez & R).
    destruct (round_small_value false m (D m ltac:(lia))) as (q & V & Q).
    rewrite R in *. cbn.
    exists (S754_finite false mz ez), q. auto.
  - destruct (round_small true m (D m ltac:(lia))) as (mz & ez & R).
    destruct (round_small_value true m (D m ltac:(lia))) as (q & V & Q).
    rewrite R in *. cbn.
    exists (S754_finite true mz ez), q. auto.
Qed.

Set Implicit Arguments.

(** [add(2 ** 52, 1, 1.5)] multiplies [2 ** 52 + 1] itself by [1.5]. *)
Lemma add_small_sum_exact_witness :
  exists y q,
    add (PyInt (2 ^ 52)) (PyInt 1) (PyFloat f_1_5) = Ok (PyFloat (fmul y f_1_5)) /\
    float_exact y = Some q /\ (q == inject_Z (2 ^ 52 + 1))%Q.
Proof.
  apply (add_small_sum_exact (2 ^ 52) 1 f_1_5).
  reflexivity.
Defined.

End AddFacts.

(* ================================================================= *)
(** * Part 6: more on what a run leaves behind *)

Module RunFacts.

Import Num Script.

Local Open Scope string_scope.
Local Open Scope list_scope.


Section AnyLibrary.

Context {L : Lize}.
Variable lib : Handler.

Lemma after_event_final (A : Type) (ev : Event) (r : Run A) :
  final (after_event ev r) = final r.
Proof.
  now destruct r.
Qed.

Lemma after_event_trace (A : Type) (ev : Event) (r : Run A) :
  trace (after_event ev r) = ev :: trace r.
Proof.
  now destruct r.
Qed.

Lemma after_event_outcome (A : Type) (ev : Event) (r : Run A) :
  outcome (after_event ev r) = outcome r.
Proof.
  now destruct r.
Qed.

(** ** Standard output *)




Ltac next_call :=
  match goal with
  | |- context [match lib ?c ?w with pair _ _ => _ end] =>
      let E := fresh "E" in
      destruct (lib c w) as [[? | ?] ?] eqn:E; cbn in *
  | H : context [match lib ?c ?w with pair _ _ => _ end] |- _ =>
      let E := fresh "E" in
      destruct (lib c w) as [[? | ?] ?] eqn:E; cbn in *
  | u : unit |- _ => destruct u
  end.

Ltac run_script :=
  unfold script, print_runnable, print_callable in *; cbn in *;
  repeat next_call.



(** ** Module-level names *)




Ltac next_step :=
  match goal with
  | |- context [match lib ?c ?w with pair _ _ => _ end] =>
      let E := fresh "E" in
      destruct (lib c w) as [[? | ?] ?] eqn:E; cbn in *
  | H : context [match lib ?c ?w with pair _ _ => _ end] |- _ =>
      let E := fresh "E" in
      destruct (lib c w) as [[? | ?] ?] eqn:E; cbn in *
  | |- context [if accepts ?o ?s then _ else _] =>
      let E := fresh "E" in
      destruct (accepts o s) eqn:E; cbn in *
  | H : context [if accepts ?o ?s then _ else _] |- _ =>
      let E := fresh "E" in
      destruct (accepts o s) eqn:E; cbn in *
  | u : unit |- _ => destruct u
  end.

Ltac run_script_on :=
  unfold script, print_runnable, print_callable in *; cbn in *;
  repeat next_step.


(** ** The command line, the environment and standard input *)

Lemma handle_inputs (X : Type) (o : Op X) (w : World) :
  keeps_inputs lib ->
  argv (snd (handle lib o w)) = argv w /\
  environ (snd (handle lib o w)) = environ w /\
  (is_input (event_of o (fst (handle lib o w))) = false ->
   stdin (snd (handle lib o w)) = stdin w).
Proof.
  intros K.
  destruct o as [X c | x v | line | | | name]; cbn; auto.
  - destruct (K X c w) as (A & E & I). auto.
  - unfold read_stdin. destruct (stdin w); cbn; repeat split; discriminate.
Qed.

Lemma run_inputs (A : Type) (p : Prog A) (w : World) :
  keeps_inputs lib ->
  argv (final (run lib p w)) = argv w /\
  environ (final (run lib p w)) = environ w /\
  (existsb is_input (trace (run lib p w)) = false ->
   stdin (final (run lib p w)) = stdin w).
Proof.
  intros K; revert w.
  induction p as [a | e | X o k IH]; intros w; cbn [run].
  - auto.
  - auto.
  - destruct (handle_inputs o w K) as (HA & HE & HI).
    destruct (handle lib o w) as [[x | e] w']; cbn [fst snd] in HA, HE, HI.
    + rewrite after_event_final, after_event_trace.
      destruct (IH x w') as (IA & IE & II).
      repeat split; [congruence | congruence | ].
      cbn [existsb]. intros N.
      apply orb_false_iff in N. destruct N as [N1 N2].
      rewrite (II N2). now apply HI.
    + cbn [final trace existsb]. repeat split; auto.
      intros N. apply orb_false_iff in N. now apply HI.
Qed.

Lemma script_reads_no_input (w : World) :
  existsb is_input (trace (run lib script w)) = false.
Proof.
  run_script; reflexivity.
Qed.

(** X7.  Against a library that leaves them alone, every run of the
    module body, completed or not, ends with the command line, the
    environment and the unread standard input exactly as it found
    them: the script consumes no input. *)
Theorem script_keeps_inputs (w : World) :
  keeps_inputs lib ->
  argv (final (run lib script w)) = argv w /\
  environ (final (run lib script w)) = environ w /\
  stdin (final (run lib script w)) = stdin w.
Proof.
  intros K.
  destruct (run_inputs script w K) as (A & E & I).
  repeat split; [assumption | assumption | ].
  apply I, script_reads_no_input.
Qed.

End AnyLibrary.

(** ** The script against the two sample libraries *)



Lemma toy_lib_keeps_inputs : keeps_inputs toy_lib.
Proof.
  intros X c w; destruct c; repeat split.
Qed.



(** [HOME=/root python t.py --verbose] ends with its command line and
    environment as they were. *)
Lemma script_keeps_inputs_witness :
  argv (final (run toy_lib script other_world)) = argv other_world /\
  environ (final (run toy_lib script other_world)) = environ other_world /\
  stdin (final (run toy_lib script other_world)) = stdin other_world.
Proof.
  apply (script_keeps_inputs other_world toy_lib_keeps_inputs).
Defined.

End RunFacts.
